(** * Session state containers of the React state-management examples

    The repository shows the same authentication state three times:
    - [UseState]: a context provider built on two [useState] cells
      (state/useState/src/AuthProvider.tsx),
    - [Reducer]: a context provider built on [useReducer] with the
      [authReducer] transition function (state/useReducer/src/AuthProvider.tsx),
    - [Store]: a Zustand store created with [create] (authStore.ts).

    The checkout form's validation schema (forms/checkout/src/types/checkout.ts)
    is embedded in [Checkout].

    JavaScript values are embedded as follows: a [string] is a JS string, a
    [bool] a JS boolean, and [option] stands for a value that may be [null]
    or [undefined] ([None]) instead of an object or a string ([Some]).  The
    code compares strings with literals and tests them for emptiness only,
    apart from the length and pattern checks of the checkout schema, where
    one character stands for one code unit. *)

From Stdlib Require Import String Ascii List Bool Arith Lia.
Import ListNotations.
Open Scope string_scope.

(** ** AuthTypes.ts *)

(** [interface User { id: string; name: string; email: string }] *)
Record User : Type := mkUser {
  id : string;
  name : string;
  email : string
}.

(** [interface AuthState { isLoggedIn: boolean; user: User | null }] *)
Record AuthState : Type := mkAuthState {
  isLoggedIn : bool;
  user : option User
}.

(** The discriminated union [AuthAction = LoginAction | LogoutAction]:
    [{ type: 'LOGIN'; payload: User }] and [{ type: 'LOGOUT' }]. *)
Inductive AuthAction : Type :=
| LoginAction (payload : User)
| LogoutAction.

(** An action object as the reducer meets it at run time: a [type] tag, which
    the [switch] compares with string literals, and a [payload] that is
    present or not.  The [default] branch of the reducer exists for the tags
    that the union above does not have. *)
Record Action : Type := mkAction {
  type : string;
  payload : option User
}.

Definition action_of (a : AuthAction) : Action :=
  match a with
  | LoginAction userData => {| type := "LOGIN"; payload := Some userData |}
  | LogoutAction => {| type := "LOGOUT"; payload := None |}
  end.

(** ** Vocabulary of the specification

    The specification calls [isLoggedIn] the authenticated flag, [user] the
    identity, a LOGIN action an establish request and a LOGOUT action a
    clear request.  It calls an identity record structurally valid when its
    id and its display name are non-empty, and names three errors that
    [dispatch] may report.  Neither notion occurs in the source; both
    are declared here so that the properties can be stated. *)

Definition structurally_valid (d : User) : bool :=
  negb (id d =? "") && negb (name d =? "").

Inductive DispatchError : Type :=
| InvalidTransitionRequest
| UnknownTransitionKind
| ReentrantDispatch.

(** What a call of a state-changing operation leaves behind: the error it
    raised, if any, and the state that [getState] reads afterwards. *)
Record Outcome : Type := mkOutcome {
  raised : option DispatchError;
  getState : AuthState
}.

(** ** useReducer variant (AuthProvider.tsx) *)

Module Reducer.

Definition initialState : AuthState :=
  {| isLoggedIn := false; user := None |}.

(** The object spread [...state] copies the two fields of [state], and
    both are overwritten by the fields that follow it. *)
Definition authReducer (state : AuthState) (action : Action) : AuthState :=
  if type action =? "LOGIN" then
    {| isLoggedIn := true; user := payload action |}
  else if type action =? "LOGOUT" then
    {| isLoggedIn := false; user := None |}
  else
    state.

(** [const [state, dispatch] = useReducer(authReducer, initialState)]:
    [dispatch] replaces the state by the reducer's result.  The reducer has
    no [throw], so no error is ever raised. *)
Definition dispatch (state : AuthState) (action : Action) : Outcome :=
  {| raised := None; getState := authReducer state action |}.

(** [login] and [logout] of the provider. *)
Definition login (userData : User) (state : AuthState) : Outcome :=
  dispatch state (action_of (LoginAction userData)).

Definition logout (state : AuthState) : Outcome :=
  dispatch state (action_of LogoutAction).

(** The state after a sequence of dispatched actions. *)
Definition run (state : AuthState) (actions : list Action) : AuthState :=
  fold_left authReducer actions state.

End Reducer.

(** ** Zustand variant (authStore.ts) *)

Module Store.

(** The argument of [set]: an object holding some of the state's fields.
    [set] merges it into the current state ([Object.assign]), a field
    that the argument lacks keeps its value. *)
Record Partial : Type := mkPartial {
  p_isLoggedIn : option bool;
  p_user : option (option User)
}.

Definition set (partial : Partial) (state : AuthState) : AuthState :=
  {| isLoggedIn :=
       match p_isLoggedIn partial with
       | Some b => b
       | None => isLoggedIn state
       end;
     user :=
       match p_user partial with
       | Some u => u
       | None => user state
       end |}.

(** The data fields of the object given to [create]. *)
Definition initialState : AuthState :=
  {| isLoggedIn := false; user := None |}.

Definition login (userData : User) (state : AuthState) : Outcome :=
  {| raised := None;
     getState := set {| p_isLoggedIn := Some true;
                        p_user := Some (Some userData) |} state |}.

Definition logout (state : AuthState) : Outcome :=
  {| raised := None;
     getState := set {| p_isLoggedIn := Some false;
                        p_user := Some None |} state |}.

End Store.

(** ** useState variant (AuthProvider.tsx) *)

Module UseState.

(** [const [isLoggedIn, setIsLoggedIn] = useState<boolean>(false);]
    [const [user, setUser] = useState<User | null>(null);] *)
Definition initialState : AuthState :=
  {| isLoggedIn := false; user := None |}.

(** A call of one of the two setters. *)
Inductive Update : Type :=
| setIsLoggedIn (value : bool)
| setUser (value : option User).

(** A setter replaces its own cell and leaves the other one alone. *)
Definition apply_update (state : AuthState) (u : Update) : AuthState :=
  match u with
  | setIsLoggedIn value => {| isLoggedIn := value; user := user state |}
  | setUser value => {| isLoggedIn := isLoggedIn state; user := value |}
  end.

(** The bodies of [login] and [logout]: the setter calls, in order. *)
Definition login (userData : User) : list Update :=
  [setIsLoggedIn true; setUser (Some userData)].

Definition logout : list Update :=
  [setIsLoggedIn false; setUser None].

(** A setter call does not change what the running handler or a consumer
    of the context reads: React queues the update and, with [createRoot],
    processes all the updates queued by one handler in a single render.
    The provider publishes the state of that render. *)
Definition render (state : AuthState) (queue : list Update) : AuthState :=
  fold_left apply_update queue state.

(** Calling a handler: the setters raise nothing. *)
Definition call (handler : list Update) (state : AuthState) : Outcome :=
  {| raised := None; getState := render state handler |}.

End UseState.

(** ** One transition of each variant, by request

    The three providers expose the same two operations, [login(userData)]
    and [logout()]; a request of type [AuthAction] names one of them. *)

Definition step_reducer (state : AuthState) (request : AuthAction)
  : AuthState :=
  match request with
  | LoginAction userData => getState (Reducer.login userData state)
  | LogoutAction => getState (Reducer.logout state)
  end.

Definition step_store (state : AuthState) (request : AuthAction)
  : AuthState :=
  match request with
  | LoginAction userData => getState (Store.login userData state)
  | LogoutAction => getState (Store.logout state)
  end.

Definition step_useState (state : AuthState) (request : AuthAction)
  : AuthState :=
  match request with
  | LoginAction userData =>
      getState (UseState.call (UseState.login userData) state)
  | LogoutAction => getState (UseState.call UseState.logout state)
  end.

(** ** Properties of states and transitions *)

(** The session invariant: the identity is non-null exactly when the
    authenticated flag is set. *)
Definition consistent (s : AuthState) : Prop :=
  user s <> None <-> isLoggedIn s = true.

(** A transition from [s] to [s'] that was asked to set the flag to [flag]
    and the identity to [ident] applied as a whole, or not at all. *)
Definition atomic_step (s s' : AuthState) (flag : bool) (ident : option User)
  : Prop :=
  (isLoggedIn s' = flag /\ user s' = ident)
  \/ (isLoggedIn s' = isLoggedIn s /\ user s' = user s).

(** The mixed outcome that must not be observed: one field was moved to
    its requested value while the other one kept an old value that differs
    from the requested one. *)
Definition stale_pair (s s' : AuthState) (flag : bool) (ident : option User)
  : Prop :=
  (isLoggedIn s' = flag /\ isLoggedIn s <> flag
   /\ user s' = user s /\ user s <> ident)
  \/ (user s' = ident /\ user s <> ident
      /\ isLoggedIn s' = isLoggedIn s /\ isLoggedIn s <> flag).

(** What a request asks for. *)
Definition requested_flag (request : AuthAction) : bool :=
  match request with LoginAction _ => true | LogoutAction => false end.

Definition requested_identity (request : AuthAction) : option User :=
  match request with
  | LoginAction userData => Some userData
  | LogoutAction => None
  end.

(** ** Checkout form schema (types/checkout.ts) *)

Module Checkout.

(** A value found in the object handed to the schema: a string, or any
    other JavaScript value (a number, a boolean, [null], an object). *)
Inductive value : Type :=
| VString (s : string)
| VOther.

(** The object handed to the schema, read by key; a key that is absent
    reads as [undefined], which is [None].  The first entry of a key is the
    one that counts. *)
Definition FormValues : Type := list (string * value).

Fixpoint get (input : FormValues) (key : string) : option value :=
  match input with
  | [] => None
  | (k, v) :: rest => if k =? key then Some v else get rest key
  end.

(** [z.infer<typeof checkoutSchema>]: the four card fields are optional. *)
Record CheckoutFormFields : Type := mkCheckoutFormFields {
  fullName : string;
  email : string;
  phone : string;
  streetAddress : string;
  city : string;
  zipCode : string;
  country : string;
  paymentMethod : string;
  cardHolderName : option string;
  cardNumber : option string;
  expiryDate : option string;
  cvv : option string
}.

(** [z.string()]: the field must hold a string. *)
Definition z_string (field : option value) : option string :=
  match field with
  | Some (VString s) => Some s
  | Some VOther => None
  | None => None
  end.

(** [z.string().optional()]: the field holds a string or is absent. *)
Definition z_string_optional (field : option value) : option (option string) :=
  match field with
  | Some (VString s) => Some (Some s)
  | Some VOther => None
  | None => Some None
  end.

(** [z.string().min(n)]: a string of length at least [n]. *)
Definition string_min (n : nat) (field : option value) : option string :=
  match z_string field with
  | Some s => if (n <=? String.length s)%nat then Some s else None
  | None => None
  end.

(** [z.string().regex(/^[0-9]{5}$/)]: exactly five decimal digits. *)
Definition is_digit (c : ascii) : bool :=
  (Ascii.leb "0" c && Ascii.leb c "9")%char.

Definition string_zip (field : option value) : option string :=
  match z_string field with
  | Some s =>
      if (String.length s =? 5)%nat && forallb is_digit (list_ascii_of_string s)
      then Some s else None
  | None => None
  end.

(** A value as the refinement callback computes and returns it. *)
Inductive jsval : Type :=
| JUndefined
| JString (s : string)
| JBool (b : bool).

Definition read (field : option string) : jsval :=
  match field with
  | Some s => JString s
  | None => JUndefined
  end.

(** JavaScript truthiness: [undefined] and the empty string are falsy. *)
Definition truthy (v : jsval) : bool :=
  match v with
  | JUndefined => false
  | JString s => negb (s =? "")
  | JBool b => b
  end.

(** [a && b] yields [a] when [a] is falsy and [b] otherwise. *)
Definition js_and (a b : jsval) : jsval :=
  if truthy a then b else a.

(** The callback given to [.refine]. *)
Definition refinement (data : CheckoutFormFields) : jsval :=
  if paymentMethod data =? "card" then
    js_and (js_and (js_and (read (cardHolderName data))
                           (read (cardNumber data)))
                   (read (expiryDate data)))
           (read (cvv data))
  else
    JBool true.

Section Schema.

(** [z.string().email()] tests the string with a pattern of the zod
    library, which is not part of the repository. *)
Variable is_email : string -> bool.

Definition string_email (field : option value) : option string :=
  match z_string field with
  | Some s => if is_email s then Some s else None
  | None => None
  end.

(** The [z.object({...})] part: every field is checked by its own
    schema, and the object is accepted when all of them are. *)
Definition parse_object (input : FormValues) : option CheckoutFormFields :=
  match string_min 1 (get input "fullName"),
        string_email (get input "email"),
        string_min 10 (get input "phone"),
        string_min 1 (get input "streetAddress"),
        string_min 1 (get input "city"),
        string_zip (get input "zipCode"),
        string_min 1 (get input "country"),
        string_min 1 (get input "paymentMethod"),
        z_string_optional (get input "cardHolderName"),
        z_string_optional (get input "cardNumber"),
        z_string_optional (get input "expiryDate"),
        z_string_optional (get input "cvv")
  with
  | Some fullName', Some email', Some phone', Some streetAddress',
    Some city', Some zipCode', Some country', Some paymentMethod',
    Some cardHolderName', Some cardNumber', Some expiryDate', Some cvv' =>
      Some {| fullName := fullName';
              email := email';
              phone := phone';
              streetAddress := streetAddress';
              city := city';
              zipCode := zipCode';
              country := country';
              paymentMethod := paymentMethod';
              cardHolderName := cardHolderName';
              cardNumber := cardNumber';
              expiryDate := expiryDate';
              cvv := cvv' |}
  | _, _, _, _, _, _, _, _, _, _, _, _ => None
  end.

(** [checkoutSchema]: the object schema followed by the refinement,
    which fails the parse when the callback's result is falsy. *)
Definition checkoutSchema (input : FormValues) : option CheckoutFormFields :=
  match parse_object input with
  | Some data => if truthy (refinement data) then Some data else None
  | None => None
  end.

End Schema.

(** A field that is present and holds a non-empty string. *)
Definition filled (field : option value) : Prop :=
  exists s, field = Some (VString s) /\ s <> "".

Definition card_keys : list string :=
  ["cardHolderName"; "cardNumber"; "expiryDate"; "cvv"].

(** The form values without the four card fields. *)
Definition without_card (input : FormValues) : FormValues :=
  filter (fun kv => negb (existsb (String.eqb (fst kv)) card_keys)) input.

(** An order paid with PayPal, as the form submits it when the card
    section is not shown. *)
Definition paypal_order : FormValues :=
  [("fullName", VString "Ada Lovelace");
   ("email", VString "ada@example.com");
   ("phone", VString "0123456789");
   ("streetAddress", VString "1 Main Street");
   ("city", VString "London");
   ("zipCode", VString "12345");
   ("country", VString "UK");
   ("paymentMethod", VString "paypal")].

(** The details of a card. *)
Definition card_details : FormValues :=
  [("cardHolderName", VString "A. Lovelace");
   ("cardNumber", VString "4111111111111111");
   ("expiryDate", VString "12/30");
   ("cvv", VString "123")].

(** An order paid by card, with all the card details filled in. *)
Definition card_order : FormValues :=
  ("paymentMethod", VString "card") :: card_details ++ paypal_order.

(** A stand-in for the e-mail pattern, for running the schema on the
    sample orders: the string has an at sign. *)
Fixpoint has_at (s : string) : bool :=
  match s with
  | EmptyString => false
  | String c rest => (c =? "@")%char || has_at rest
  end.

End Checkout.

(** ** Sample values *)

(** The user that the sample applications log in. *)
Definition guest : User :=
  {| id := "1"; name := "Guest"; email := "guest@example.com" |}.

(** The invalid payload that the specification gives as an example. *)
Definition blank : User :=
  {| id := ""; name := ""; email := "" |}.

(** An action whose tag is neither of the two that the reducer knows. *)
Definition refresh : Action :=
  {| type := "REFRESH"; payload := None |}.

(** ** ProfileIcon.tsx (useReducer and Zustand variants) *)

Module Profile.

(** What the button of the icon calls when it is clicked. *)
Inductive OnClick : Type :=
| callLogout
| callLogin (userData : User).

(** The rendered icon: the text of its paragraph and its button. *)
Record Rendered : Type := mkRendered {
  paragraph : string;
  buttonText : string;
  onClick : OnClick
}.

(** The body that both variants share.  In [Welcome, {user?.name}] an
    absent user leaves nothing after the comma. *)
Definition ProfileIcon (loggedIn : bool) (currentUser : option User)
  : Rendered :=
  if loggedIn then
    {| paragraph :=
         "Welcome, " ++ match currentUser with
                        | Some u => name u
                        | None => ""
                        end;
       buttonText := "Logout";
       onClick := callLogout |}
  else
    {| paragraph := "You are not logged in";
       buttonText := "Login";
       onClick :=
         callLogin {| id := "1"; name := "Guest";
                      email := "guest@example.com" |} |}.

(** The useReducer variant reads the state from the context and throws when
    no provider is above it ([inl] holds the message of the error). *)
Definition ProfileIcon_useContext (authContext : option AuthState)
  : string + Rendered :=
  match authContext with
  | None => inl "ProfileIcon must be used within an AuthProvider"
  | Some ctx => inr (ProfileIcon (isLoggedIn ctx) (user ctx))
  end.

(** The Zustand variant selects the two fields from the store. *)
Definition ProfileIcon_useAuthStore (state : AuthState) : Rendered :=
  ProfileIcon (isLoggedIn state) (user state).

(** Clicking the button calls [login] or [logout] of the container. *)
Definition press (step : AuthState -> AuthAction -> AuthState)
    (state : AuthState) (icon : Rendered) : AuthState :=
  match onClick icon with
  | callLogout => step state LogoutAction
  | callLogin userData => step state (LoginAction userData)
  end.

(** One click on the icon that is rendered inside the provider, and one on
    the icon that reads the store. *)
Definition click_reducer (state : AuthState) : AuthState :=
  match ProfileIcon_useContext (Some state) with
  | inr icon => press step_reducer state icon
  | inl _ => state
  end.

Definition click_store (state : AuthState) : AuthState :=
  press step_store state (ProfileIcon_useAuthStore state).

End Profile.

(** The action objects that the reducer has a case for. *)
Definition is_known (action : Action) : bool :=
  (type action =? "LOGIN") || (type action =? "LOGOUT").

(** The values that a queue of setter calls writes to each of the two
    cells, in the order of the calls. *)
Definition flags_written (queue : list UseState.Update) : list bool :=
  flat_map (fun u =>
              match u with
              | UseState.setIsLoggedIn b => [b]
              | UseState.setUser _ => []
              end)
           queue.

Definition users_written (queue : list UseState.Update)
  : list (option User) :=
  flat_map (fun u =>
              match u with
              | UseState.setIsLoggedIn _ => []
              | UseState.setUser v => [v]
              end)
           queue.

(** ** RadioInputGroup.tsx *)

Module Radio.

(** [{ value: string; label: string }] *)
Record RadioOption : Type := mkRadioOption {
  value : string;
  label : string
}.

(** One rendered [<input type="radio">] with the text beside it.  Its
    [onChange] handler calls the [onChange] prop with [inputValue]. *)
Record RadioInput : Type := mkRadioInput {
  inputValue : string;
  checked : bool;
  text : string
}.

(** [options.map(opt => ...)], with [checked={value === opt.value}]; the
    [value] prop may be [undefined]. *)
Definition RadioInputGroup (options : list RadioOption)
    (current : option string) : list RadioInput :=
  map (fun opt =>
         {| inputValue := value opt;
            checked := match current with
                       | Some v => v =? value opt
                       | None => false
                       end;
            text := label opt |})
      options.

(** What the [onChange] prop receives when the radio at position [i] is
    chosen; the [Controller] of the form stores it as the field's value. *)
Definition choose (options : list RadioOption) (i : nat) : option string :=
  option_map value (nth_error options i).

Definition paymentOptions : list RadioOption :=
  [{| value := "card"; label := "Credit Card" |};
   {| value := "paypal"; label := "PayPal" |}].

End Radio.

(** ** The checkout form (App.tsx) *)

Module CheckoutApp.

(** The props of a [FormInput] that the form sets; [type] defaults to
    "text". *)
Record FormInput : Type := mkFormInput {
  label : string;
  name : string;
  type : string
}.

Definition shipping : list FormInput :=
  [{| label := "Full Name"; name := "fullName"; type := "text" |};
   {| label := "Email"; name := "email"; type := "email" |};
   {| label := "Phone"; name := "phone"; type := "tel" |};
   {| label := "Street Address"; name := "streetAddress"; type := "text" |};
   {| label := "City"; name := "city"; type := "text" |};
   {| label := "Zip Code"; name := "zipCode"; type := "text" |};
   {| label := "Country"; name := "country"; type := "text" |}].

Definition card_details : list FormInput :=
  [{| label := "Cardholder Name"; name := "cardHolderName"; type := "text" |};
   {| label := "Card Number"; name := "cardNumber"; type := "text" |};
   {| label := "Expiry Date"; name := "expiryDate"; type := "text" |};
   {| label := "CVV"; name := "cvv"; type := "text" |}].

(** The names of the fields that the form renders an input for, in order:
    the shipping inputs, the [Controller] of the payment method, and the
    card inputs under [paymentMethod === "card"], where [paymentMethod] is
    the watched value of the field. *)
Definition fields (paymentMethod : option string) : list string :=
  (map name shipping
   ++ ["paymentMethod"]
   ++ match paymentMethod with
      | Some method => if method =? "card" then map name card_details else []
      | None => []
      end)%list.

End CheckoutApp.

(** ** More on the checkout schema *)

Module CheckoutValues.
Import Checkout.

(** The keys that the object schema reads. *)
Definition schema_keys : list string :=
  (["fullName"; "email"; "phone"; "streetAddress"; "city"; "zipCode";
    "country"; "paymentMethod"] ++ card_keys)%list.

Definition optional_entry (key : string) (field : option string)
  : FormValues :=
  match field with
  | Some s => [(key, VString s)]
  | None => []
  end.

(** The parsed data read as an object again: an optional field that is
    [undefined] has no entry. *)
Definition to_values (data : CheckoutFormFields) : FormValues :=
  ([("fullName", VString (fullName data));
    ("email", VString (email data));
    ("phone", VString (phone data));
    ("streetAddress", VString (streetAddress data));
    ("city", VString (city data));
    ("zipCode", VString (zipCode data));
    ("country", VString (country data));
    ("paymentMethod", VString (paymentMethod data))]
   ++ optional_entry "cardHolderName" (cardHolderName data)
   ++ optional_entry "cardNumber" (cardNumber data)
   ++ optional_entry "expiryDate" (expiryDate data)
   ++ optional_entry "cvv" (cvv data))%list.

(** The object without the entries of one key. *)
Definition remove_key (key : string) (input : FormValues) : FormValues :=
  filter (fun kv => negb (fst kv =? key)) input.

(** The decimal digits. *)
Definition digits : list ascii :=
  ["0"; "1"; "2"; "3"; "4"; "5"; "6"; "7"; "8"; "9"]%char.

(** Everything that the object schema checks, field by field. *)
Definition object_conditions (is_email : string -> bool)
    (input : FormValues) (data : CheckoutFormFields) : Prop :=
  (get input "fullName" = Some (VString (fullName data))
   /\ 1 <= String.length (fullName data))
  /\ (get input "email" = Some (VString (email data))
      /\ is_email (email data) = true)
  /\ (get input "phone" = Some (VString (phone data))
      /\ 10 <= String.length (phone data))
  /\ (get input "streetAddress" = Some (VString (streetAddress data))
      /\ 1 <= String.length (streetAddress data))
  /\ (get input "city" = Some (VString (city data))
      /\ 1 <= String.length (city data))
  /\ (get input "zipCode" = Some (VString (zipCode data))
      /\ String.length (zipCode data) = 5
      /\ Forall (fun c => In c digits) (list_ascii_of_string (zipCode data)))
  /\ (get input "country" = Some (VString (country data))
      /\ 1 <= String.length (country data))
  /\ (get input "paymentMethod" = Some (VString (paymentMethod data))
      /\ 1 <= String.length (paymentMethod data))
  /\ get input "cardHolderName" = option_map VString (cardHolderName data)
  /\ get input "cardNumber" = option_map VString (cardNumber data)
  /\ get input "expiryDate" = option_map VString (expiryDate data)
  /\ get input "cvv" = option_map VString (cvv data).

End CheckoutValues.

(** ** The schema of the forms guide (forms/README.md)

    The guide's schema is the one of checkout.ts except for the zip code,
    which it checks with [z.string().min(5)]. *)

Module Guide.
Import Checkout.

Section Schema.

Variable is_email : string -> bool.

Definition parse_object (input : FormValues) : option CheckoutFormFields :=
  match string_min 1 (get input "fullName"),
        string_email is_email (get input "email"),
        string_min 10 (get input "phone"),
        string_min 1 (get input "streetAddress"),
        string_min 1 (get input "city"),
        string_min 5 (get input "zipCode"),
        string_min 1 (get input "country"),
        string_min 1 (get input "paymentMethod"),
        z_string_optional (get input "cardHolderName"),
        z_string_optional (get input "cardNumber"),
        z_string_optional (get input "expiryDate"),
        z_string_optional (get input "cvv")
  with
  | Some fullName', Some email', Some phone', Some streetAddress',
    Some city', Some zipCode', Some country', Some paymentMethod',
    Some cardHolderName', Some cardNumber', Some expiryDate', Some cvv' =>
      Some {| fullName := fullName';
              email := email';
              phone := phone';
              streetAddress := streetAddress';
              city := city';
              zipCode := zipCode';
              country := country';
              paymentMethod := paymentMethod';
              cardHolderName := cardHolderName';
              cardNumber := cardNumber';
              expiryDate := expiryDate';
              cvv := cvv' |}
  | _, _, _, _, _, _, _, _, _, _, _, _ => None
  end.

(** The callback of [.refine] is the same text as in checkout.ts. *)
Definition checkoutSchema (input : FormValues) : option CheckoutFormFields :=
  match parse_object input with
  | Some data => if truthy (refinement data) then Some data else None
  | None => None
  end.

End Schema.

End Guide.

(** * Properties *)

(** ** The reducer, branch by branch *)

Lemma authReducer_LOGIN (state : AuthState) (userData : User) :
  Reducer.authReducer state (action_of (LoginAction userData))
  = {| isLoggedIn := true; user := Some userData |}.
Proof. reflexivity. Qed.

Lemma authReducer_LOGOUT (state : AuthState) :
  Reducer.authReducer state (action_of LogoutAction)
  = {| isLoggedIn := false; user := None |}.
Proof. reflexivity. Qed.

Lemma authReducer_default (state : AuthState) (action : Action) :
  type action <> "LOGIN" -> type action <> "LOGOUT" ->
  Reducer.authReducer state action = state.
Proof.
  intros Hlogin Hlogout. unfold Reducer.authReducer.
  apply String.eqb_neq in Hlogin, Hlogout.
  now rewrite Hlogin, Hlogout.
Qed.

(** The reducer's result never depends on the state it starts from, unless
    it is that very state. *)
Lemma authReducer_cases (state : AuthState) (action : Action) :
  Reducer.authReducer state action = state
  \/ Reducer.authReducer state action
     = {| isLoggedIn := true; user := payload action |}
  \/ Reducer.authReducer state action
     = {| isLoggedIn := false; user := None |}.
Proof.
  unfold Reducer.authReducer.
  destruct (type action =? "LOGIN"); [now right; left |].
  destruct (type action =? "LOGOUT"); [now right; right | now left].
Qed.

(** ** What holds of any container that replaces its state as requested *)

Section Container.

Variable step : AuthState -> AuthAction -> AuthState.

Hypothesis step_replaces :
  forall state request,
    step state request
    = {| isLoggedIn := requested_flag request;
         user := requested_identity request |}.

Lemma step_consistent (state : AuthState) (request : AuthAction) :
  consistent (step state request).
Proof.
  rewrite step_replaces.
  destruct request as [userData |]; unfold consistent; simpl; split;
    congruence.
Qed.

(** The invariant holds after any run that starts where it holds. *)
Lemma run_keeps_consistent (requests : list AuthAction) :
  forall state, consistent state -> consistent (fold_left step requests state).
Proof.
  induction requests as [| request requests IH]; intros state Hstate; simpl.
  - exact Hstate.
  - apply IH, step_consistent.
Qed.

Lemma step_atomic (state : AuthState) (request : AuthAction) :
  atomic_step state (step state request)
    (requested_flag request) (requested_identity request).
Proof.
  left. rewrite step_replaces. split; reflexivity.
Qed.

Lemma step_not_stale (state : AuthState) (request : AuthAction) :
  ~ stale_pair state (step state request)
      (requested_flag request) (requested_identity request).
Proof.
  rewrite step_replaces. unfold stale_pair; simpl.
  intros [(_ & _ & Hu & Hne) | (_ & _ & Hf & Hne)]; congruence.
Qed.

End Container.

(** ** The three variants replace their state as requested *)

Lemma step_reducer_replaces (state : AuthState) (request : AuthAction) :
  step_reducer state request
  = {| isLoggedIn := requested_flag request;
       user := requested_identity request |}.
Proof.
  destruct request as [userData |]; unfold step_reducer, Reducer.login,
    Reducer.logout, Reducer.dispatch; simpl getState.
  - apply authReducer_LOGIN.
  - apply authReducer_LOGOUT.
Qed.

Lemma step_store_replaces (state : AuthState) (request : AuthAction) :
  step_store state request
  = {| isLoggedIn := requested_flag request;
       user := requested_identity request |}.
Proof.
  destruct request as [userData |]; reflexivity.
Qed.

(** Here the two queued updates are applied one after the other: the first
    one sets the flag, the second one the user. *)
Lemma step_useState_replaces (state : AuthState) (request : AuthAction) :
  step_useState state request
  = {| isLoggedIn := requested_flag request;
       user := requested_identity request |}.
Proof.
  destruct request as [userData |]; unfold step_useState, UseState.call,
    UseState.render, UseState.login, UseState.logout; simpl getState;
    cbn [fold_left UseState.apply_update isLoggedIn user]; reflexivity.
Qed.

Lemma consistent_initial :
  consistent {| isLoggedIn := false; user := None |}.
Proof. unfold consistent; simpl; split; congruence. Qed.

(** ** Establishing and clearing a session *)

(** C1: for every structurally valid identity record [d] and every current
    state, the establish request carrying [d] raises no error and leaves
    [{isLoggedIn: true, user: d}] behind, in the reducer variant and in the
    store variant. *)
Theorem establish_sets_session (state : AuthState) (d : User)
    (Hvalid : structurally_valid d = true) :
  Reducer.dispatch state (action_of (LoginAction d))
    = {| raised := None;
         getState := {| isLoggedIn := true; user := Some d |} |}
  /\ Store.login d state
    = {| raised := None;
         getState := {| isLoggedIn := true; user := Some d |} |}.
Proof.
  split.
  - unfold Reducer.dispatch. now rewrite authReducer_LOGIN.
  - reflexivity.
Qed.

Lemma establish_sets_session_witness :
  structurally_valid guest = true
  /\ Reducer.dispatch Reducer.initialState (action_of (LoginAction guest))
     = {| raised := None;
          getState := {| isLoggedIn := true; user := Some guest |} |}
  /\ Store.login guest Store.initialState
     = {| raised := None;
          getState := {| isLoggedIn := true; user := Some guest |} |}.
Proof.
  split; [reflexivity |].
  apply (establish_sets_session Reducer.initialState guest). reflexivity.
Defined.

(** C2: from any state, a clear request leaves
    [{isLoggedIn: false, user: null}] behind, and so does any number of
    clear requests in a row, in the reducer variant and in the store
    variant. *)
Theorem clear_resets_session (state : AuthState) (n : nat) :
  Reducer.dispatch state (action_of LogoutAction)
    = {| raised := None;
         getState := {| isLoggedIn := false; user := None |} |}
  /\ Store.logout state
    = {| raised := None;
         getState := {| isLoggedIn := false; user := None |} |}
  /\ Nat.iter (S n)
       (fun s => getState (Reducer.dispatch s (action_of LogoutAction))) state
    = {| isLoggedIn := false; user := None |}
  /\ Nat.iter (S n) (fun s => getState (Store.logout s)) state
    = {| isLoggedIn := false; user := None |}.
Proof.
  repeat split.
Qed.

(** C3: in every state that a sequence of login and logout requests
    reaches from the initial state, the user is non-null if and only if
    [isLoggedIn] is true; this holds for the reducer, for the store and for
    the states that the useState provider renders. *)
Theorem reachable_states_consistent (requests : list AuthAction) :
  consistent (fold_left step_reducer requests Reducer.initialState)
  /\ consistent (fold_left step_store requests Store.initialState)
  /\ consistent (fold_left step_useState requests UseState.initialState).
Proof.
  split; [| split].
  - apply (run_keeps_consistent step_reducer step_reducer_replaces).
    exact consistent_initial.
  - apply (run_keeps_consistent step_store step_store_replaces).
    exact consistent_initial.
  - apply (run_keeps_consistent step_useState step_useState_replaces).
    exact consistent_initial.
Qed.

(** The default branch keeps the invariant too: it holds after any sequence
    of action objects in which every LOGIN action carries a payload. *)
Lemma run_consistent (actions : list Action) :
  Forall (fun a => type a = "LOGIN" -> payload a <> None) actions ->
  consistent (Reducer.run Reducer.initialState actions).
Proof.
  unfold Reducer.run.
  assert (Hgen : forall s, consistent s ->
            Forall (fun a => type a = "LOGIN" -> payload a <> None) actions ->
            consistent (fold_left Reducer.authReducer actions s)).
  { induction actions as [| a actions IH]; intros s Hs Hall; simpl.
    - exact Hs.
    - inversion Hall as [| a' l' Ha Hrest]; subst.
      apply IH; [| exact Hrest].
      unfold Reducer.authReducer.
      destruct (type a =? "LOGIN") eqn:Hlogin.
      + apply String.eqb_eq in Hlogin. specialize (Ha Hlogin).
        unfold consistent; simpl. split; [reflexivity | intros _; exact Ha].
      + destruct (type a =? "LOGOUT"); [exact consistent_initial | exact Hs]. }
  apply Hgen. exact consistent_initial.
Qed.

(** ** Requests that the specification wants rejected *)

(** C4, as the code has it: an establish request whose identity record is
    structurally invalid (an empty id or an empty display name) is accepted
    like any other: no error is raised and the state becomes
    [{isLoggedIn: true, user: d}], in the reducer's [dispatch] as in the
    useState provider's [login]. *)
Theorem invalid_establish_accepted (state : AuthState) (d : User)
    (Hinvalid : structurally_valid d = false) :
  Reducer.dispatch state (action_of (LoginAction d))
    = {| raised := None;
         getState := {| isLoggedIn := true; user := Some d |} |}
  /\ UseState.call (UseState.login d) state
    = {| raised := None;
         getState := {| isLoggedIn := true; user := Some d |} |}.
Proof.
  split; reflexivity.
Qed.

Lemma invalid_establish_accepted_witness :
  structurally_valid blank = false
  /\ Reducer.dispatch Reducer.initialState (action_of (LoginAction blank))
     = {| raised := None;
          getState := {| isLoggedIn := true; user := Some blank |} |}
  /\ UseState.call (UseState.login blank) Reducer.initialState
     = {| raised := None;
          getState := {| isLoggedIn := true; user := Some blank |} |}.
Proof.
  split; [reflexivity |].
  apply (invalid_establish_accepted Reducer.initialState blank). reflexivity.
Defined.

(** C4, counterexample: the specification's example of an invalid payload
    is not rejected:
    [dispatch] neither raises [InvalidTransitionRequest] nor leaves the
    initial state in place. *)
Lemma invalid_establish_not_rejected :
  structurally_valid blank = false
  /\ raised (Reducer.dispatch Reducer.initialState
                (action_of (LoginAction blank)))
     <> Some InvalidTransitionRequest
  /\ getState (Reducer.dispatch Reducer.initialState
                  (action_of (LoginAction blank)))
     <> Reducer.initialState.
Proof.
  split; [reflexivity |]. split; simpl; discriminate.
Qed.

(** C5, as the code has it: an action whose tag is neither LOGIN nor LOGOUT
    is ignored: [dispatch] raises no error and the state is unchanged. *)
Theorem unknown_kind_ignored (state : AuthState) (action : Action)
    (Hlogin : type action <> "LOGIN") (Hlogout : type action <> "LOGOUT") :
  Reducer.dispatch state action = {| raised := None; getState := state |}.
Proof.
  unfold Reducer.dispatch. now rewrite authReducer_default.
Qed.

Lemma unknown_kind_ignored_witness :
  type refresh <> "LOGIN" /\ type refresh <> "LOGOUT"
  /\ Reducer.dispatch Reducer.initialState refresh
     = {| raised := None; getState := Reducer.initialState |}.
Proof.
  split; [discriminate |]. split; [discriminate |].
  apply (unknown_kind_ignored Reducer.initialState refresh); discriminate.
Defined.

(** C5, counterexample: an action of unknown kind does not make [dispatch]
    raise [UnknownTransitionKind]. *)
Lemma unknown_kind_not_reported :
  type refresh <> "LOGIN" /\ type refresh <> "LOGOUT"
  /\ raised (Reducer.dispatch Reducer.initialState refresh)
     <> Some UnknownTransitionKind.
Proof.
  repeat split; simpl; discriminate.
Qed.

(** ** Atomicity *)

(** C6: no transition applies in part.  For every state and every request,
    the state that each variant shows next has both fields at their
    requested values or both as they were, and never one field moved with
    the other one stale; for every action object, the reducer returns the
    state it was given or one of the two complete replacements. *)
Theorem transitions_atomic (state : AuthState) (request : AuthAction) :
  let flag := requested_flag request in
  let ident := requested_identity request in
  (atomic_step state (step_reducer state request) flag ident
   /\ ~ stale_pair state (step_reducer state request) flag ident)
  /\ (atomic_step state (step_store state request) flag ident
      /\ ~ stale_pair state (step_store state request) flag ident)
  /\ (atomic_step state (step_useState state request) flag ident
      /\ ~ stale_pair state (step_useState state request) flag ident)
  /\ (forall action : Action,
        Reducer.authReducer state action = state
        \/ Reducer.authReducer state action
           = {| isLoggedIn := true; user := payload action |}
        \/ Reducer.authReducer state action
           = {| isLoggedIn := false; user := None |}).
Proof.
  intros flag ident. subst flag ident.
  split; [| split; [| split]].
  - split; [apply (step_atomic _ step_reducer_replaces)
           | apply (step_not_stale _ step_reducer_replaces)].
  - split; [apply (step_atomic _ step_store_replaces)
           | apply (step_not_stale _ step_store_replaces)].
  - split; [apply (step_atomic _ step_useState_replaces)
           | apply (step_not_stale _ step_useState_replaces)].
  - intros action. apply authReducer_cases.
Qed.

(** ** Round trip *)

(** C7: from every state and for every valid identity record [d], clear
    followed by establish with [d] followed by clear ends in exactly the
    initial state, in each variant. *)
Theorem clear_establish_clear (state : AuthState) (d : User)
    (Hvalid : structurally_valid d = true) :
  fold_left step_reducer [LogoutAction; LoginAction d; LogoutAction] state
    = Reducer.initialState
  /\ fold_left step_store [LogoutAction; LoginAction d; LogoutAction] state
    = Store.initialState
  /\ fold_left step_useState [LogoutAction; LoginAction d; LogoutAction] state
    = UseState.initialState.
Proof.
  repeat split.
Qed.

Lemma clear_establish_clear_witness :
  structurally_valid guest = true
  /\ fold_left step_reducer [LogoutAction; LoginAction guest; LogoutAction]
       {| isLoggedIn := true; user := Some guest |}
     = Reducer.initialState
  /\ fold_left step_store [LogoutAction; LoginAction guest; LogoutAction]
       {| isLoggedIn := true; user := Some guest |}
     = Store.initialState
  /\ fold_left step_useState [LogoutAction; LoginAction guest; LogoutAction]
       {| isLoggedIn := true; user := Some guest |}
     = UseState.initialState.
Proof.
  split; [reflexivity |].
  apply (clear_establish_clear
           {| isLoggedIn := true; user := Some guest |} guest).
  reflexivity.
Defined.

(** ** The variants agree *)

(** C8: for every state and every user record, [login] and [logout] of the
    useState provider, the LOGIN and LOGOUT cases of the reducer, and
    [login] and [logout] of the Zustand store produce equal states. *)
Theorem variants_agree (state : AuthState) (userData : User) :
  (getState (UseState.call (UseState.login userData) state)
     = Reducer.authReducer state (action_of (LoginAction userData))
   /\ Reducer.authReducer state (action_of (LoginAction userData))
     = getState (Store.login userData state))
  /\ (getState (UseState.call UseState.logout state)
        = Reducer.authReducer state (action_of LogoutAction)
      /\ Reducer.authReducer state (action_of LogoutAction)
        = getState (Store.logout state)).
Proof.
  repeat split.
Qed.

(** Hence the three variants stay equal along every run. *)
Lemma runs_agree (requests : list AuthAction) (state : AuthState) :
  fold_left step_useState requests state
  = fold_left step_reducer requests state
  /\ fold_left step_reducer requests state
     = fold_left step_store requests state.
Proof.
  revert state. induction requests as [| request requests IH]; intros state.
  - split; reflexivity.
  - cbn [fold_left].
    rewrite step_useState_replaces, step_store_replaces.
    rewrite <- (step_reducer_replaces state request).
    apply IH.
Qed.

(** ** Where the guarantees stop *)

(** The type of [dispatch] requires a payload on a LOGIN action.  An action
    object that lacks it makes the reducer set the flag with no user. *)
Remark login_without_payload :
  Reducer.authReducer Reducer.initialState
    {| type := "LOGIN"; payload := None |}
  = {| isLoggedIn := true; user := None |}.
Proof. reflexivity. Qed.

(** In the useState provider the two fields are written by two setter
    calls.  The updates queued by [login], cut after the first one, give a
    pair with the flag set and a stale user: the provider never shows it
    only because React renders after the whole handler has run. *)
Remark first_setter_alone (userData : User) :
  stale_pair UseState.initialState
    (UseState.render UseState.initialState [UseState.setIsLoggedIn true])
    true (Some userData).
Proof.
  left. simpl. repeat split; discriminate.
Qed.

(** ** The checkout schema *)

Module CheckoutFacts.
Import Checkout.

Lemma truthy_js_and (a b : jsval) :
  truthy (js_and a b) = truthy a && truthy b.
Proof.
  unfold js_and. destruct (truthy a) eqn:Ha; simpl; [reflexivity | exact Ha].
Qed.

Lemma truthy_read (field : option string) :
  truthy (read field) = true <-> exists s, field = Some s /\ s <> "".
Proof.
  destruct field as [s |]; simpl; split.
  - intros H. exists s. split; [reflexivity |].
    apply String.eqb_neq. now destruct (s =? "").
  - intros (s' & [= <-] & Hne). apply String.eqb_neq in Hne. now rewrite Hne.
  - discriminate.
  - intros (s' & [=] & _).
Qed.

(** An optional field that the object schema accepted is truthy exactly
    when the input holds a non-empty string under its key. *)
Lemma optional_truthy_filled (field : option value) (parsed : option string) :
  z_string_optional field = Some parsed ->
  truthy (read parsed) = true <-> filled field.
Proof.
  intros Hparsed. rewrite truthy_read. unfold filled.
  destruct field as [[s |] |]; simpl in Hparsed; try discriminate;
    injection Hparsed as <-; split; intros (s' & Heq & Hne);
    try discriminate; exists s'; split; congruence.
Qed.

(** The callback's verdict, spelled out. *)
Lemma refinement_card (data : CheckoutFormFields) :
  paymentMethod data = "card" ->
  truthy (refinement data)
  = truthy (read (cardHolderName data)) && truthy (read (cardNumber data))
    && truthy (read (expiryDate data)) && truthy (read (cvv data)).
Proof.
  intros Hcard. unfold refinement. rewrite Hcard. simpl.
  now rewrite !truthy_js_and.
Qed.

Lemma refinement_other (data : CheckoutFormFields) :
  paymentMethod data <> "card" -> refinement data = JBool true.
Proof.
  intros Hother. unfold refinement.
  apply String.eqb_neq in Hother. now rewrite Hother.
Qed.

Lemma string_min_Some (n : nat) (field : option value) (s : string) :
  string_min n field = Some s -> field = Some (VString s).
Proof.
  unfold string_min. destruct field as [[s' |] |]; simpl; try discriminate.
  destruct (n <=? String.length s')%nat; [| discriminate].
  now intros [= <-].
Qed.

(** Go through the field schemas of the object one by one; the object is
    rejected as soon as one of them rejects its field. *)
Ltac each_field :=
  repeat match goal with
         | |- context [match ?field with Some _ => _ | None => _ end] =>
             destruct field eqn:?; [| discriminate]
         end.

(** The object schema hands the fields on as it found them. *)
Lemma parse_object_fields (is_email : string -> bool)
    (input : FormValues) (data : CheckoutFormFields) :
  parse_object is_email input = Some data ->
  get input "paymentMethod" = Some (VString (paymentMethod data))
  /\ z_string_optional (get input "cardHolderName") = Some (cardHolderName data)
  /\ z_string_optional (get input "cardNumber") = Some (cardNumber data)
  /\ z_string_optional (get input "expiryDate") = Some (expiryDate data)
  /\ z_string_optional (get input "cvv") = Some (cvv data).
Proof.
  unfold parse_object. each_field. intros [= <-]. simpl.
  match goal with
  | Hpm : string_min 1 (get input "paymentMethod") = Some _ |- _ =>
      apply string_min_Some in Hpm
  end.
  now repeat split.
Qed.

Lemma checkoutSchema_Some (is_email : string -> bool)
    (input : FormValues) (data : CheckoutFormFields) :
  checkoutSchema is_email input = Some data <->
  parse_object is_email input = Some data /\ truthy (refinement data) = true.
Proof.
  unfold checkoutSchema.
  destruct (parse_object is_email input) as [data' |]; split.
  - destruct (truthy (refinement data')) eqn:Hr; [| discriminate].
    intros [= <-]. now split.
  - intros [[= <-] Hr]. now rewrite Hr.
  - discriminate.
  - intros [[=] _].
Qed.

(** Reading the form values after the card fields were dropped. *)
Lemma get_without_card (input : FormValues) (key : string) :
  get (without_card input) key
  = if existsb (String.eqb key) card_keys then None else get input key.
Proof.
  induction input as [| [k v] rest IH].
  - unfold without_card. cbn [filter get].
    now destruct (existsb (String.eqb key) card_keys).
  - unfold without_card in *. cbn [filter fst get].
    destruct (existsb (String.eqb k) card_keys) eqn:Hk; cbn [negb get].
    + rewrite IH. destruct (k =? key) eqn:Hkey; [| reflexivity].
      apply String.eqb_eq in Hkey. subst key. now rewrite Hk.
    + destruct (k =? key) eqn:Hkey; [| exact IH].
      apply String.eqb_eq in Hkey. subst key. now rewrite Hk.
Qed.

(** Dropping the card fields does not disturb the object schema. *)
Lemma parse_object_without_card (is_email : string -> bool)
    (input : FormValues) (data : CheckoutFormFields) :
  parse_object is_email input = Some data ->
  exists data',
    parse_object is_email (without_card input) = Some data'
    /\ paymentMethod data' = paymentMethod data
    /\ cardHolderName data' = None /\ cardNumber data' = None
    /\ expiryDate data' = None /\ cvv data' = None.
Proof.
  unfold parse_object. rewrite !get_without_card.
  cbn [existsb card_keys String.eqb Ascii.eqb Bool.eqb orb z_string_optional].
  each_field. intros [= <-].
  eexists. split; [reflexivity |]. simpl. now repeat split.
Qed.

End CheckoutFacts.

(** C10: the checkout schema accepts form values only if, when the payment
    method is "card", the card holder name, the card number, the expiry
    date and the cvv are all present and non-empty; when the payment method
    is anything else, the refinement asks for nothing: whatever the object
    schema accepts is accepted, also with the four card fields absent. *)
Theorem card_details_refinement (is_email : string -> bool) :
  (forall (input : Checkout.FormValues) (data : Checkout.CheckoutFormFields),
      Checkout.checkoutSchema is_email input = Some data ->
      Checkout.get input "paymentMethod" = Some (Checkout.VString "card") ->
      Checkout.filled (Checkout.get input "cardHolderName")
      /\ Checkout.filled (Checkout.get input "cardNumber")
      /\ Checkout.filled (Checkout.get input "expiryDate")
      /\ Checkout.filled (Checkout.get input "cvv"))
  /\ (forall (input : Checkout.FormValues) (data : Checkout.CheckoutFormFields),
      Checkout.parse_object is_email input = Some data ->
      Checkout.paymentMethod data <> "card" ->
      Checkout.truthy (Checkout.refinement data) = true
      /\ Checkout.checkoutSchema is_email input = Some data
      /\ exists data',
           Checkout.checkoutSchema is_email (Checkout.without_card input)
           = Some data'
           /\ Checkout.cardHolderName data' = None
           /\ Checkout.cardNumber data' = None
           /\ Checkout.expiryDate data' = None
           /\ Checkout.cvv data' = None).
Proof.
  split.
  - intros input data Haccept Hcard.
    apply CheckoutFacts.checkoutSchema_Some in Haccept as [Hparse Hrefine].
    apply CheckoutFacts.parse_object_fields in Hparse
      as (Hpm & Hname & Hnumber & Hdate & Hcvv).
    rewrite Hcard in Hpm. injection Hpm as Hpm. symmetry in Hpm.
    rewrite (CheckoutFacts.refinement_card data Hpm) in Hrefine.
    apply andb_prop in Hrefine as [Hrefine H4].
    apply andb_prop in Hrefine as [Hrefine H3].
    apply andb_prop in Hrefine as [H1 H2].
    repeat split;
      eapply CheckoutFacts.optional_truthy_filled; eassumption.
  - intros input data Hparse Hother.
    assert (Hrefine : Checkout.truthy (Checkout.refinement data) = true)
      by now rewrite CheckoutFacts.refinement_other.
    split; [exact Hrefine |]. split.
    + apply CheckoutFacts.checkoutSchema_Some. now split.
    + destruct (CheckoutFacts.parse_object_without_card
                  is_email input data Hparse)
        as (data' & Hparse' & Hpm' & Hcards).
      exists data'. split; [| exact Hcards].
      apply CheckoutFacts.checkoutSchema_Some. split; [exact Hparse' |].
      rewrite CheckoutFacts.refinement_other; [reflexivity |].
      now rewrite Hpm'.
Qed.

Lemma card_details_refinement_witness :
  ((exists data,
       Checkout.checkoutSchema Checkout.has_at Checkout.card_order = Some data)
   /\ Checkout.get Checkout.card_order "paymentMethod"
      = Some (Checkout.VString "card")
   /\ Checkout.filled (Checkout.get Checkout.card_order "cardHolderName")
   /\ Checkout.filled (Checkout.get Checkout.card_order "cardNumber")
   /\ Checkout.filled (Checkout.get Checkout.card_order "expiryDate")
   /\ Checkout.filled (Checkout.get Checkout.card_order "cvv"))
  /\ exists data,
       Checkout.parse_object Checkout.has_at Checkout.paypal_order = Some data
       /\ Checkout.paymentMethod data <> "card"
       /\ Checkout.checkoutSchema Checkout.has_at Checkout.paypal_order
          = Some data
       /\ exists data',
            Checkout.checkoutSchema Checkout.has_at
              (Checkout.without_card Checkout.paypal_order) = Some data'
            /\ Checkout.cardHolderName data' = None
            /\ Checkout.cardNumber data' = None
            /\ Checkout.expiryDate data' = None
            /\ Checkout.cvv data' = None.
Proof.
  destruct (card_details_refinement Checkout.has_at) as [Hcard Hother].
  split.
  - split; [eexists; vm_compute; reflexivity |].
    split; [reflexivity |].
    eapply (Hcard Checkout.card_order);
      [vm_compute; reflexivity | reflexivity].
  - eexists. split; [vm_compute; reflexivity |].
    split; [simpl; discriminate |].
    eapply (Hother Checkout.paypal_order);
      [vm_compute; reflexivity | simpl; discriminate].
Defined.

(** ** The schema and the containers on sample inputs *)

Example paypal_order_accepted :
  Checkout.checkoutSchema Checkout.has_at Checkout.paypal_order <> None.
Proof. vm_compute. discriminate. Qed.

Example card_order_accepted :
  Checkout.checkoutSchema Checkout.has_at Checkout.card_order <> None.
Proof. vm_compute. discriminate. Qed.

(** A card order without its card fields passes the object schema and is
    turned down by the refinement. *)
Example card_order_without_details_rejected :
  Checkout.parse_object Checkout.has_at
    (Checkout.without_card Checkout.card_order) <> None
  /\ Checkout.checkoutSchema Checkout.has_at
       (Checkout.without_card Checkout.card_order) = None.
Proof. split; vm_compute; [discriminate | reflexivity]. Qed.

(** An empty cvv counts as a missing one. *)
Example card_order_empty_cvv_rejected :
  Checkout.checkoutSchema Checkout.has_at
    (("cvv", Checkout.VString "") :: Checkout.card_order) = None.
Proof. vm_compute. reflexivity. Qed.

(** The walk through of the sample application: log the guest in, then
    out again. *)
Example guest_session :
  fold_left step_reducer [LoginAction guest] Reducer.initialState
  = {| isLoggedIn := true; user := Some guest |}
  /\ fold_left step_reducer [LoginAction guest; LogoutAction]
       Reducer.initialState
     = {| isLoggedIn := false; user := None |}.
Proof. split; reflexivity. Qed.

(** * Further properties of the code *)

(** ** The icon and its button *)

Section Icon.

Variable step : AuthState -> AuthAction -> AuthState.

Hypothesis step_replaces :
  forall state request,
    step state request
    = {| isLoggedIn := requested_flag request;
         user := requested_identity request |}.

(** A click logs the guest in when nobody is logged in, and logs out
    otherwise. *)
Lemma press_icon (state : AuthState) :
  Profile.press step state
    (Profile.ProfileIcon (isLoggedIn state) (user state))
  = if isLoggedIn state
    then {| isLoggedIn := false; user := None |}
    else {| isLoggedIn := true; user := Some guest |}.
Proof.
  unfold Profile.press, Profile.ProfileIcon.
  destruct (isLoggedIn state); simpl; now rewrite step_replaces.
Qed.

Lemma presses_from_logged_out (click : AuthState -> AuthState) (n : nat) :
  (forall state,
      click state
      = Profile.press step state
          (Profile.ProfileIcon (isLoggedIn state) (user state))) ->
  Nat.iter n click {| isLoggedIn := false; user := None |}
  = if Nat.even n
    then {| isLoggedIn := false; user := None |}
    else {| isLoggedIn := true; user := Some guest |}.
Proof.
  intros Hclick. induction n as [| n IH].
  - reflexivity.
  - rewrite Nat.iter_succ, IH, Hclick, press_icon, Nat.even_succ.
    rewrite <- Nat.negb_even. now destruct (Nat.even n).
Qed.


End Icon.

(** X1: starting with nobody logged in, [n] clicks on the button of the
    icon leave nobody logged in when [n] is even and the guest logged in
    when [n] is odd, with the useReducer provider as with the store. *)
Theorem clicks_toggle_guest (n : nat) :
  Nat.iter n Profile.click_reducer Reducer.initialState
  = (if Nat.even n
     then Reducer.initialState
     else {| isLoggedIn := true; user := Some guest |})
  /\ Nat.iter n Profile.click_store Store.initialState
     = (if Nat.even n
        then Store.initialState
        else {| isLoggedIn := true; user := Some guest |}).
Proof.
  split.
  - apply (presses_from_logged_out step_reducer step_reducer_replaces).
    reflexivity.
  - apply (presses_from_logged_out step_store step_store_replaces).
    reflexivity.
Qed.


(** ** Runs of the reducer *)

Lemma authReducer_known (state state' : AuthState) (action : Action) :
  is_known action = true ->
  Reducer.authReducer state action = Reducer.authReducer state' action.
Proof.
  unfold is_known, Reducer.authReducer.
  destruct (type action =? "LOGIN"); [reflexivity |].
  destruct (type action =? "LOGOUT"); [reflexivity | discriminate].
Qed.

Lemma authReducer_unknown (state : AuthState) (action : Action) :
  is_known action = false -> Reducer.authReducer state action = state.
Proof.
  unfold is_known, Reducer.authReducer.
  destruct (type action =? "LOGIN"); [discriminate |].
  destruct (type action =? "LOGOUT"); [discriminate | reflexivity].
Qed.

Lemma run_unknown (actions : list Action) :
  forall state,
    forallb (fun a => negb (is_known a)) actions = true ->
    Reducer.run state actions = state.
Proof.
  unfold Reducer.run.
  induction actions as [| a actions IH]; intros state Hall; simpl in *.
  - reflexivity.
  - apply andb_prop in Hall as [Ha Hall].
    apply negb_true_iff in Ha.
    rewrite (authReducer_unknown state a Ha). now apply IH.
Qed.

(** Actions without a case of their own can be left out of a run. *)
Lemma run_filter_known (actions : list Action) :
  forall state,
    Reducer.run state actions = Reducer.run state (filter is_known actions).
Proof.
  unfold Reducer.run.
  induction actions as [| a actions IH]; intros state; simpl.
  - reflexivity.
  - destruct (is_known a) eqn:Ha; simpl.
    + apply IH.
    + rewrite (authReducer_unknown state a Ha). apply IH.
Qed.

(** X3: the state after a run of action objects is decided by the last
    LOGIN or LOGOUT action in it alone: whatever the state at the start,
    the actions before it and the actions of other kinds after it, the
    result is what the reducer makes of that action; and a run without any
    LOGIN or LOGOUT action changes nothing. *)
Theorem last_known_action_decides
    (state state' : AuthState) (before after : list Action) (action : Action)
    (Hknown : is_known action = true)
    (Hafter : forallb (fun a => negb (is_known a)) after = true) :
  Reducer.run state (before ++ action :: after)
  = Reducer.authReducer state' action
  /\ Reducer.run state after = state.
Proof.
  split; [| now apply run_unknown].
  unfold Reducer.run. rewrite fold_left_app. cbn [fold_left].
  fold (Reducer.run (Reducer.authReducer
                       (fold_left Reducer.authReducer before state) action)
          after).
  rewrite run_unknown by exact Hafter.
  now apply authReducer_known.
Qed.

Lemma last_known_action_decides_witness :
  is_known (action_of LogoutAction) = true
  /\ forallb (fun a => negb (is_known a)) [refresh; refresh] = true
  /\ Reducer.run Reducer.initialState
       ([action_of (LoginAction guest); refresh]
        ++ action_of LogoutAction :: [refresh; refresh])
     = Reducer.authReducer {| isLoggedIn := true; user := Some blank |}
         (action_of LogoutAction)
  /\ Reducer.run Reducer.initialState [refresh; refresh]
     = Reducer.initialState.
Proof.
  split; [reflexivity |]. split; [reflexivity |].
  apply (last_known_action_decides Reducer.initialState
           {| isLoggedIn := true; user := Some blank |}
           [action_of (LoginAction guest); refresh] [refresh; refresh]
           (action_of LogoutAction));
    reflexivity.
Defined.

(** ** Setter calls of the useState provider *)

Lemma last_cons {A : Type} (x d : A) (l : list A) :
  last (x :: l) d = last l x.
Proof.
  revert x d. induction l as [| y l IH]; intros x d.
  - reflexivity.
  - change (last (x :: y :: l) d) with (last (y :: l) d).
    now rewrite (IH y d), (IH y x).
Qed.

(** X4: in the useState provider each cell ends a handler with the last
    value that the handler gave to its setter, and keeps its value when its
    setter was not called; neither the order of calls to different setters
    nor earlier calls to the same setter matter. *)
Theorem last_setter_call_wins (queue : list UseState.Update)
    (state : AuthState) :
  UseState.render state queue
  = {| isLoggedIn := last (flags_written queue) (isLoggedIn state);
       user := last (users_written queue) (user state) |}.
Proof.
  unfold UseState.render. revert state.
  induction queue as [| u queue IH]; intros state.
  - now destruct state.
  - cbn [fold_left]. rewrite IH.
    destruct u as [b | v]; cbn [flags_written users_written flat_map app];
      fold (flags_written queue); fold (users_written queue);
      now rewrite last_cons.
Qed.

(** ** What the checkout schema lets through *)

Module SchemaFacts.
Import Checkout CheckoutValues.

Lemma is_digit_digits (c : ascii) : is_digit c = true -> In c digits.
Proof.
  destruct c as [[] [] [] [] [] [] [] []]; vm_compute; intros H;
    try discriminate H; tauto.
Qed.

Lemma digits_is_digit (c : ascii) : In c digits -> is_digit c = true.
Proof.
  intros H. repeat (destruct H as [<- | H]; [reflexivity |]). destruct H.
Qed.

Lemma string_min_spec (n : nat) (field : option value) (s : string) :
  string_min n field = Some s <->
  field = Some (VString s) /\ n <= String.length s.
Proof.
  unfold string_min. destruct field as [[s' |] |]; simpl.
  - destruct (Nat.leb_spec n (String.length s')); split.
    + intros [= <-]. now split.
    + now intros [[= <-] _].
    + discriminate.
    + intros [[= <-] Hle]. lia.
  - split; [discriminate | now intros [[=] _]].
  - split; [discriminate | now intros [[=] _]].
Qed.

Lemma string_zip_spec (field : option value) (s : string) :
  string_zip field = Some s <->
  field = Some (VString s) /\ String.length s = 5
  /\ Forall (fun c => In c digits) (list_ascii_of_string s).
Proof.
  unfold string_zip. destruct field as [[s' |] |]; simpl.
  - destruct (String.length s' =? 5)%nat eqn:Hlen; simpl.
    + apply Nat.eqb_eq in Hlen.
      destruct (forallb is_digit (list_ascii_of_string s')) eqn:Hdigits.
      * split.
        -- intros [= <-]. repeat split; [exact Hlen |].
           rewrite forallb_forall in Hdigits. apply Forall_forall.
           intros c Hc. now apply is_digit_digits, Hdigits.
        -- now intros [[= <-] _].
      * split; [discriminate |]. intros ([= <-] & _ & Hall).
        rewrite Forall_forall in Hall.
        assert (Htrue : forallb is_digit (list_ascii_of_string s') = true).
        { apply forallb_forall. intros c Hc.
          now apply digits_is_digit, Hall. }
        congruence.
    + apply Nat.eqb_neq in Hlen. split; [discriminate |].
      intros ([= <-] & Hfive & _). contradiction.
  - split; [discriminate | now intros [[=] _]].
  - split; [discriminate | now intros [[=] _]].
Qed.

Lemma string_email_spec (is_email : string -> bool)
    (field : option value) (s : string) :
  string_email is_email field = Some s <->
  field = Some (VString s) /\ is_email s = true.
Proof.
  unfold string_email. destruct field as [[s' |] |]; simpl.
  - destruct (is_email s') eqn:Hemail; split.
    + intros [= <-]. now split.
    + now intros [[= <-] _].
    + discriminate.
    + intros [[= <-] Htrue]. congruence.
  - split; [discriminate | now intros [[=] _]].
  - split; [discriminate | now intros [[=] _]].
Qed.

(** A field of the parsed data is the field of the input. *)
Lemma optional_entry_spec (field : option value) (parsed : option string) :
  z_string_optional field = Some parsed <->
  field = option_map VString parsed.
Proof.
  destruct field as [[s |] |], parsed as [s' |]; simpl; split;
    intros H; try discriminate H; try congruence.
Qed.

Lemma parse_object_spec (is_email : string -> bool)
    (input : FormValues) (data : CheckoutFormFields) :
  parse_object is_email input = Some data <->
  object_conditions is_email input data.
Proof.
  unfold object_conditions.
  rewrite <- !string_min_spec, <- string_zip_spec, <- string_email_spec,
    <- !optional_entry_spec.
  unfold parse_object. split.
  - CheckoutFacts.each_field. intros [= <-]. simpl. now repeat split.
  - intros (-> & -> & -> & -> & -> & -> & -> & -> & -> & -> & -> & ->).
    now destruct data.
Qed.

End SchemaFacts.

Module SchemaMoreFacts.
Import Checkout CheckoutValues.

Lemma string_zip_min (field : option value) (s : string) :
  string_zip field = Some s -> string_min 5 field = Some s.
Proof.
  intros H. apply SchemaFacts.string_zip_spec in H as (Hfield & Hlen & _).
  apply SchemaFacts.string_min_spec. split; [exact Hfield | lia].
Qed.

(** The refinement's verdict in terms of the parsed card fields. *)
Lemma refinement_truthy (data : CheckoutFormFields) :
  truthy (refinement data) = true <->
  (paymentMethod data = "card" ->
   (exists s, cardHolderName data = Some s /\ s <> "")
   /\ (exists s, cardNumber data = Some s /\ s <> "")
   /\ (exists s, expiryDate data = Some s /\ s <> "")
   /\ (exists s, cvv data = Some s /\ s <> "")).
Proof.
  destruct (string_dec (paymentMethod data) "card") as [Hcard | Hother].
  - rewrite (CheckoutFacts.refinement_card data Hcard).
    rewrite !andb_true_iff, !CheckoutFacts.truthy_read. tauto.
  - rewrite (CheckoutFacts.refinement_other data Hother). simpl.
    split; [intros _ Hcard; contradiction | reflexivity].
Qed.

Lemma get_to_values (data : CheckoutFormFields) :
  get (to_values data) "fullName" = Some (VString (fullName data))
  /\ get (to_values data) "email" = Some (VString (email data))
  /\ get (to_values data) "phone" = Some (VString (phone data))
  /\ get (to_values data) "streetAddress"
     = Some (VString (streetAddress data))
  /\ get (to_values data) "city" = Some (VString (city data))
  /\ get (to_values data) "zipCode" = Some (VString (zipCode data))
  /\ get (to_values data) "country" = Some (VString (country data))
  /\ get (to_values data) "paymentMethod"
     = Some (VString (paymentMethod data))
  /\ get (to_values data) "cardHolderName"
     = option_map VString (cardHolderName data)
  /\ get (to_values data) "cardNumber"
     = option_map VString (cardNumber data)
  /\ get (to_values data) "expiryDate"
     = option_map VString (expiryDate data)
  /\ get (to_values data) "cvv" = option_map VString (cvv data).
Proof.
  destruct data as [? ? ? ? ? ? ? ? [?|] [?|] [?|] [?|]];
    repeat split; reflexivity.
Qed.

End SchemaMoreFacts.

(** X5: the schema accepts an object, with [data] as the result, exactly
    when the eight required fields hold strings that meet their checks
    (a non-empty full name, street address, city, country and payment
    method, an e-mail address that passes the e-mail check, a phone number
    of at least ten characters, a zip code of exactly five decimal digits),
    each card field holds a string or is absent, and, for the payment
    method "card", the four card fields are non-empty; [data] carries the
    fields of the object unchanged. *)
Theorem accepted_exactly_when (is_email : string -> bool)
    (input : Checkout.FormValues) (data : Checkout.CheckoutFormFields) :
  Checkout.checkoutSchema is_email input = Some data <->
  CheckoutValues.object_conditions is_email input data
  /\ (Checkout.paymentMethod data = "card" ->
      (exists s, Checkout.cardHolderName data = Some s /\ s <> "")
      /\ (exists s, Checkout.cardNumber data = Some s /\ s <> "")
      /\ (exists s, Checkout.expiryDate data = Some s /\ s <> "")
      /\ (exists s, Checkout.cvv data = Some s /\ s <> "")).
Proof.
  rewrite CheckoutFacts.checkoutSchema_Some.
  now rewrite SchemaFacts.parse_object_spec, SchemaMoreFacts.refinement_truthy.
Qed.

(** X6: validating is idempotent: the data that the schema returns, read
    as an object again, is accepted and comes back unchanged. *)
Theorem accepted_data_validates (is_email : string -> bool)
    (input : Checkout.FormValues) (data : Checkout.CheckoutFormFields)
    (Haccept : Checkout.checkoutSchema is_email input = Some data) :
  Checkout.checkoutSchema is_email (CheckoutValues.to_values data)
  = Some data.
Proof.
  apply CheckoutFacts.checkoutSchema_Some in Haccept as [Hobject Hrefine].
  apply CheckoutFacts.checkoutSchema_Some. split; [| exact Hrefine].
  apply SchemaFacts.parse_object_spec in Hobject.
  apply SchemaFacts.parse_object_spec.
  unfold CheckoutValues.object_conditions in *.
  destruct (SchemaMoreFacts.get_to_values data)
    as (-> & -> & -> & -> & -> & -> & -> & -> & -> & -> & -> & ->).
  intuition.
Qed.

Lemma accepted_data_validates_witness :
  exists data,
    Checkout.checkoutSchema Checkout.has_at Checkout.card_order = Some data
    /\ Checkout.checkoutSchema Checkout.has_at
         (CheckoutValues.to_values data) = Some data.
Proof.
  eexists. split; [vm_compute; reflexivity |].
  apply (accepted_data_validates Checkout.has_at Checkout.card_order).
  vm_compute. reflexivity.
Defined.

(** X7: the schema looks at its twelve keys only: two objects that agree
    on them get the same verdict and the same data, so that other keys and
    the order of the keys make no difference. *)
Theorem other_keys_ignored (is_email : string -> bool)
    (input1 input2 : Checkout.FormValues)
    (Hsame : forall key,
        In key CheckoutValues.schema_keys ->
        Checkout.get input1 key = Checkout.get input2 key) :
  Checkout.checkoutSchema is_email input1
  = Checkout.checkoutSchema is_email input2.
Proof.
  unfold Checkout.checkoutSchema, Checkout.parse_object.
  rewrite !Hsame by (simpl; tauto). reflexivity.
Qed.

Lemma other_keys_ignored_witness :
  (forall key,
      In key CheckoutValues.schema_keys ->
      Checkout.get Checkout.paypal_order key
      = Checkout.get (("coupon", Checkout.VOther) :: rev Checkout.paypal_order)
          key)
  /\ Checkout.checkoutSchema Checkout.has_at Checkout.paypal_order
     = Checkout.checkoutSchema Checkout.has_at
         (("coupon", Checkout.VOther) :: rev Checkout.paypal_order).
Proof.
  assert (Hsame : forall key,
             In key CheckoutValues.schema_keys ->
             Checkout.get Checkout.paypal_order key
             = Checkout.get
                 (("coupon", Checkout.VOther) :: rev Checkout.paypal_order)
                 key).
  { intros key Hkey.
    repeat (destruct Hkey as [<- | Hkey]; [reflexivity |]). destruct Hkey. }
  split; [exact Hsame |].
  apply (other_keys_ignored Checkout.has_at _ _ Hsame).
Defined.

(** ** The form and its schema *)

Lemma length_nonempty (n : nat) (s : string) :
  S n <= String.length s -> s <> "".
Proof.
  intros Hlen ->. simpl in Hlen. lia.
Qed.

(** X8: in an order that the schema accepts, every field that the form
    renders an input for, given the order's payment method, holds a string,
    and a non-empty one unless it is the e-mail field, which holds what the
    e-mail check lets through. *)
Theorem shown_fields_are_filled (is_email : string -> bool)
    (input : Checkout.FormValues) (data : Checkout.CheckoutFormFields)
    (Haccept : Checkout.checkoutSchema is_email input = Some data)
    (key : string)
    (Hshown : In key (CheckoutApp.fields
                        (Some (Checkout.paymentMethod data)))) :
  exists s,
    Checkout.get input key = Some (Checkout.VString s)
    /\ (key <> "email" -> s <> "").
Proof.
  apply CheckoutFacts.checkoutSchema_Some in Haccept as [Hobject Hrefine].
  apply SchemaFacts.parse_object_spec in Hobject.
  pose proof (proj1 (SchemaMoreFacts.refinement_truthy data) Hrefine)
    as Hcards.
  destruct Hobject as
    ((Hname & Lname) & (Hemail & _) & (Hphone & Lphone) & (Hstreet & Lstreet)
     & (Hcity & Lcity) & (Hzip & Lzip & _) & (Hcountry & Lcountry)
     & (Hmethod & Lmethod) & Hholder & Hnumber & Hdate & Hcvv).
  unfold CheckoutApp.fields in Hshown. cbn [map CheckoutApp.shipping
    CheckoutApp.name app] in Hshown.
  repeat (destruct Hshown as [<- | Hshown];
          [eexists; split; [eassumption |];
           intros Hkey; try (now contradiction Hkey);
           apply (length_nonempty 0); lia |]).
  destruct (Checkout.paymentMethod data =? "card") eqn:Hcard;
    [| destruct Hshown].
  apply String.eqb_eq in Hcard.
  destruct (Hcards Hcard)
    as ((s1 & E1 & N1) & (s2 & E2 & N2) & (s3 & E3 & N3) & (s4 & E4 & N4)).
  rewrite E1 in Hholder. rewrite E2 in Hnumber.
  rewrite E3 in Hdate. rewrite E4 in Hcvv.
  cbn [map CheckoutApp.card_details CheckoutApp.name] in Hshown.
  repeat (destruct Hshown as [<- | Hshown];
          [eexists; split; [eassumption | now intros _] |]).
  destruct Hshown.
Qed.

Lemma shown_fields_are_filled_witness :
  exists data,
    Checkout.checkoutSchema Checkout.has_at Checkout.card_order = Some data
    /\ In "cvv" (CheckoutApp.fields (Some (Checkout.paymentMethod data)))
    /\ exists s,
         Checkout.get Checkout.card_order "cvv" = Some (Checkout.VString s)
         /\ ("cvv" <> "email" -> s <> "").
Proof.
  eexists. split; [vm_compute; reflexivity |].
  split; [vm_compute; tauto |].
  eapply (shown_fields_are_filled Checkout.has_at Checkout.card_order).
  - vm_compute. reflexivity.
  - vm_compute. tauto.
Defined.

(** X9: the schema of checkout.ts is at least as strict as the one of the
    forms guide: what it accepts, the guide's schema accepts with the same
    data. *)
Theorem guide_schema_accepts_more (is_email : string -> bool)
    (input : Checkout.FormValues) (data : Checkout.CheckoutFormFields)
    (Haccept : Checkout.checkoutSchema is_email input = Some data) :
  Guide.checkoutSchema is_email input = Some data.
Proof.
  apply CheckoutFacts.checkoutSchema_Some in Haccept as [Hobject Hrefine].
  unfold Guide.checkoutSchema.
  assert (Hguide : Guide.parse_object is_email input = Some data).
  { revert Hobject. unfold Checkout.parse_object, Guide.parse_object.
    destruct (Checkout.string_zip (Checkout.get input "zipCode"))
      as [zip |] eqn:Hzip.
    - now rewrite (SchemaMoreFacts.string_zip_min _ _ Hzip).
    - CheckoutFacts.each_field. discriminate. }
  now rewrite Hguide, Hrefine.
Qed.

Lemma guide_schema_accepts_more_witness :
  exists data,
    Checkout.checkoutSchema Checkout.has_at Checkout.paypal_order = Some data
    /\ Guide.checkoutSchema Checkout.has_at Checkout.paypal_order = Some data.
Proof.
  eexists. split; [vm_compute; reflexivity |].
  apply (guide_schema_accepts_more Checkout.has_at Checkout.paypal_order).
  vm_compute. reflexivity.
Defined.

(** The converse fails: the guide's schema lets a zip code of six
    characters, or one without digits, through. *)
Example guide_schema_is_laxer :
  Guide.checkoutSchema Checkout.has_at
    (("zipCode", Checkout.VString "12345-6789") :: Checkout.paypal_order)
  <> None
  /\ Checkout.checkoutSchema Checkout.has_at
       (("zipCode", Checkout.VString "12345-6789") :: Checkout.paypal_order)
     = None.
Proof. split; vm_compute; [discriminate | reflexivity]. Qed.

(** ** The radio group *)

Module RadioFacts.
Import Radio.

Lemma nth_error_RadioInputGroup (options : list RadioOption)
    (current : option string) (i : nat) :
  nth_error (RadioInputGroup options current) i
  = option_map
      (fun opt =>
         {| inputValue := value opt;
            checked := match current with
                       | Some v => v =? value opt
                       | None => false
                       end;
            text := label opt |})
      (nth_error options i).
Proof.
  unfold RadioInputGroup. apply nth_error_map.
Qed.

(** The radios that are checked are as many as the options whose value is
    the current one. *)
Lemma checked_count (options : list RadioOption) (v : string) :
  List.length (filter checked (RadioInputGroup options (Some v)))
  = count_occ string_dec (map value options) v.
Proof.
  unfold RadioInputGroup.
  induction options as [| opt options IH]; [reflexivity |].
  cbn [map filter checked count_occ].
  destruct (string_dec (value opt) v) as [Heq | Hne].
  - assert (Htrue : (v =? value opt) = true)
      by (apply String.eqb_eq; congruence).
    rewrite Htrue. cbn [List.length]. now rewrite IH.
  - assert (Hfalse : (v =? value opt) = false)
      by (apply String.eqb_neq; congruence).
    now rewrite Hfalse.
Qed.

Lemma unchecked_without_value (options : list RadioOption) :
  filter checked (RadioInputGroup options None) = [].
Proof.
  induction options as [| opt options IH]; [reflexivity | exact IH].
Qed.

End RadioFacts.

(** X10: the group renders one radio per option, and with pairwise
    distinct option values at most one of them is checked: exactly one when
    the current value is the value of an option, and none when it is
    another string or undefined. *)
Theorem at_most_one_radio_checked (options : list Radio.RadioOption)
    (current : option string)
    (Hdistinct : NoDup (map Radio.value options)) :
  List.length (Radio.RadioInputGroup options current) = List.length options
  /\ List.length (filter Radio.checked (Radio.RadioInputGroup options current))
     = match current with
       | Some v => if in_dec string_dec v (map Radio.value options)
                   then 1 else 0
       | None => 0
       end.
Proof.
  split; [apply length_map |].
  destruct current as [v |].
  - rewrite RadioFacts.checked_count.
    destruct (in_dec string_dec v (map Radio.value options)) as [Hin | Hout].
    + now apply NoDup_count_occ'.
    + now apply count_occ_not_In.
  - now rewrite RadioFacts.unchecked_without_value.
Qed.

Lemma at_most_one_radio_checked_witness :
  NoDup (map Radio.value Radio.paymentOptions)
  /\ List.length (Radio.RadioInputGroup Radio.paymentOptions (Some "paypal"))
     = 2
  /\ List.length
       (filter Radio.checked
          (Radio.RadioInputGroup Radio.paymentOptions (Some "paypal")))
     = 1.
Proof.
  assert (Hdistinct : NoDup (map Radio.value Radio.paymentOptions)).
  { repeat constructor; simpl; intuition discriminate. }
  split; [exact Hdistinct |].
  exact (at_most_one_radio_checked Radio.paymentOptions (Some "paypal")
           Hdistinct).
Defined.

(** X11: choosing the radio at position [i] hands the value of option [i]
    to [onChange]; once that value is the current one, the radio at
    position [i] is checked, and with pairwise distinct option values no
    other radio is. *)
Theorem chosen_radio_is_checked (options : list Radio.RadioOption)
    (i : nat) (v : string)
    (Hchoose : Radio.choose options i = Some v) :
  (exists radio,
      nth_error (Radio.RadioInputGroup options (Some v)) i = Some radio
      /\ Radio.inputValue radio = v
      /\ Radio.checked radio = true)
  /\ (NoDup (map Radio.value options) ->
      forall j radio,
        nth_error (Radio.RadioInputGroup options (Some v)) j = Some radio ->
        Radio.checked radio = true ->
        j = i).
Proof.
  unfold Radio.choose in Hchoose.
  destruct (nth_error options i) as [opt |] eqn:Hopt; [| discriminate].
  injection Hchoose as Hv.
  split.
  - rewrite RadioFacts.nth_error_RadioInputGroup, Hopt. cbn [option_map].
    eexists. split; [reflexivity |]. cbn. split; [exact Hv |].
    rewrite Hv. apply String.eqb_refl.
  - intros Hdistinct j radio Hj Hchecked.
    rewrite RadioFacts.nth_error_RadioInputGroup in Hj.
    destruct (nth_error options j) as [opt' |] eqn:Hopt'; [| discriminate].
    injection Hj as <-. cbn in Hchecked.
    apply String.eqb_eq in Hchecked.
    rewrite NoDup_nth_error in Hdistinct.
    apply Hdistinct.
    + rewrite length_map. apply nth_error_Some. congruence.
    + rewrite !nth_error_map, Hopt, Hopt'. cbn. congruence.
Qed.

Lemma chosen_radio_is_checked_witness :
  Radio.choose Radio.paymentOptions 0 = Some "card"
  /\ (exists radio,
         nth_error (Radio.RadioInputGroup Radio.paymentOptions (Some "card")) 0
         = Some radio
         /\ Radio.inputValue radio = "card"
         /\ Radio.checked radio = true)
  /\ (NoDup (map Radio.value Radio.paymentOptions) ->
      forall j radio,
        nth_error (Radio.RadioInputGroup Radio.paymentOptions (Some "card")) j
        = Some radio ->
        Radio.checked radio = true ->
        j = 0).
Proof.
  split; [reflexivity |].
  apply (chosen_radio_is_checked Radio.paymentOptions 0 "card").
  reflexivity.
Defined.

(** ** The invariant and action objects of any kind *)

(** X12: the reducer keeps the session invariant along any sequence of
    action objects, those of unknown kind included, as long as every LOGIN
    action carries a payload: from a state in which the user is non-null
    exactly when [isLoggedIn] is true, it only reaches such states. *)
Theorem invariant_survives_any_action (actions : list Action)
    (state : AuthState)
    (Hstate : consistent state)
    (Hpayload : forall a,
        In a actions -> type a = "LOGIN" -> payload a <> None) :
  consistent (Reducer.run state actions).
Proof.
  unfold Reducer.run. revert state Hstate.
  induction actions as [| a actions IH]; intros state Hstate; simpl.
  - exact Hstate.
  - apply IH.
    + intros a' Ha'. apply Hpayload. now right.
    + destruct (is_known a) eqn:Hknown.
      * unfold Reducer.authReducer.
        destruct (type a =? "LOGIN") eqn:Hlogin.
        -- apply String.eqb_eq in Hlogin.
           assert (Hsome : payload a <> None)
             by (apply Hpayload; [now left | exact Hlogin]).
           unfold consistent; simpl. split; [reflexivity | now intros _].
        -- unfold is_known in Hknown. rewrite Hlogin in Hknown.
           simpl in Hknown. rewrite Hknown. exact consistent_initial.
      * now rewrite authReducer_unknown.
Qed.

Lemma invariant_survives_any_action_witness :
  consistent {| isLoggedIn := true; user := Some blank |}
  /\ (forall a,
         In a [refresh; action_of (LoginAction guest); refresh] ->
         type a = "LOGIN" -> payload a <> None)
  /\ consistent
       (Reducer.run {| isLoggedIn := true; user := Some blank |}
          [refresh; action_of (LoginAction guest); refresh]).
Proof.
  assert (Hstate : consistent {| isLoggedIn := true; user := Some blank |}).
  { unfold consistent; simpl. split; [reflexivity | discriminate]. }
  assert (Hpayload : forall a,
             In a [refresh; action_of (LoginAction guest); refresh] ->
             type a = "LOGIN" -> payload a <> None).
  { intros a [<- | [<- | [<- | []]]] Htype; simpl in *; discriminate. }
  split; [exact Hstate |]. split; [exact Hpayload |].
  exact (invariant_survives_any_action _ _ Hstate Hpayload).
Defined.

(** ** Fields that the form does not show *)

Module HiddenFields.
Import Checkout CheckoutValues.

Lemma get_remove_key (key key' : string) (input : FormValues) :
  get (remove_key key input) key'
  = if key =? key' then None else get input key'.
Proof.
  unfold remove_key. induction input as [| [k v] rest IH]; cbn [filter fst get].
  - now destruct (key =? key').
  - destruct (k =? key) eqn:Hk; cbn [negb get].
    + rewrite IH. apply String.eqb_eq in Hk. subst k.
      now destruct (key =? key').
    + destruct (k =? key') eqn:Hk'; [| exact IH].
      apply String.eqb_eq in Hk'. subst k.
      now rewrite String.eqb_sym, Hk.
Qed.

(** A key without an input on the form is none of the eight keys that are
    always shown, and is no card key when the payment method is "card". *)
Lemma hidden_key (method key : string) :
  ~ In key (CheckoutApp.fields (Some method)) ->
  ((key =? "fullName") = false /\ (key =? "email") = false
   /\ (key =? "phone") = false /\ (key =? "streetAddress") = false
   /\ (key =? "city") = false /\ (key =? "zipCode") = false
   /\ (key =? "country") = false /\ (key =? "paymentMethod") = false)
  /\ (method = "card" ->
      (key =? "cardHolderName") = false /\ (key =? "cardNumber") = false
      /\ (key =? "expiryDate") = false /\ (key =? "cvv") = false).
Proof.
  intros Hhidden. unfold CheckoutApp.fields in Hhidden.
  cbn [map CheckoutApp.shipping CheckoutApp.card_details CheckoutApp.name app]
    in Hhidden.
  split.
  - repeat split; apply String.eqb_neq; intros ->; apply Hhidden;
      simpl; tauto.
  - intros ->. rewrite String.eqb_refl in Hhidden.
    repeat split; apply String.eqb_neq; intros ->; apply Hhidden;
      simpl; tauto.
Qed.

End HiddenFields.

(** X13: a field that the form does not render for an order's payment
    method is never demanded: dropping its key from an accepted order
    leaves an order that the schema accepts, with the same payment
    method. *)
Theorem hidden_fields_are_not_demanded (is_email : string -> bool)
    (input : Checkout.FormValues) (data : Checkout.CheckoutFormFields)
    (key : string)
    (Haccept : Checkout.checkoutSchema is_email input = Some data)
    (Hhidden : ~ In key (CheckoutApp.fields
                           (Some (Checkout.paymentMethod data)))) :
  Checkout.get (CheckoutValues.remove_key key input) key = None
  /\ exists data',
       Checkout.checkoutSchema is_email (CheckoutValues.remove_key key input)
       = Some data'
       /\ Checkout.paymentMethod data' = Checkout.paymentMethod data.
Proof.
  split.
  - now rewrite HiddenFields.get_remove_key, String.eqb_refl.
  - apply CheckoutFacts.checkoutSchema_Some in Haccept as [Hobject Hrefine].
    destruct (HiddenFields.hidden_key _ _ Hhidden)
      as ((N1 & N2 & N3 & N4 & N5 & N6 & N7 & N8) & Hcards).
    assert (Hobject' :
              exists data',
                Checkout.parse_object is_email
                  (CheckoutValues.remove_key key input) = Some data'
                /\ Checkout.paymentMethod data' = Checkout.paymentMethod data
                /\ (Checkout.paymentMethod data = "card" -> data' = data)).
    { revert Hobject. unfold Checkout.parse_object.
      rewrite !HiddenFields.get_remove_key, N1, N2, N3, N4, N5, N6, N7, N8.
      destruct (key =? "cardHolderName") eqn:K1,
               (key =? "cardNumber") eqn:K2,
               (key =? "expiryDate") eqn:K3,
               (key =? "cvv") eqn:K4;
        cbn [Checkout.z_string_optional];
        CheckoutFacts.each_field; intros [= <-];
        cbn [Checkout.paymentMethod] in *;
        eexists; (split; [reflexivity |]); (split; [reflexivity |]);
        intros Hcard; destruct (Hcards Hcard) as (? & ? & ? & ?);
        try discriminate; reflexivity. }
    destruct Hobject' as (data' & Hparse & Hmethod & Hsame).
    exists data'. split; [| exact Hmethod].
    apply CheckoutFacts.checkoutSchema_Some. split; [exact Hparse |].
    destruct (string_dec (Checkout.paymentMethod data) "card")
      as [Hcard | Hother].
    + now rewrite (Hsame Hcard).
    + rewrite CheckoutFacts.refinement_other; [reflexivity |].
      now rewrite Hmethod.
Qed.

Lemma hidden_fields_are_not_demanded_witness :
  exists data,
    Checkout.checkoutSchema Checkout.has_at
      (("cvv", Checkout.VString "123") :: Checkout.paypal_order) = Some data
    /\ ~ In "cvv" (CheckoutApp.fields (Some (Checkout.paymentMethod data)))
    /\ Checkout.get
         (CheckoutValues.remove_key "cvv"
            (("cvv", Checkout.VString "123") :: Checkout.paypal_order)) "cvv"
       = None
    /\ exists data',
         Checkout.checkoutSchema Checkout.has_at
           (CheckoutValues.remove_key "cvv"
              (("cvv", Checkout.VString "123") :: Checkout.paypal_order))
         = Some data'
         /\ Checkout.paymentMethod data' = Checkout.paymentMethod data.
Proof.
  eexists. split; [vm_compute; reflexivity |].
  assert (Hhidden : ~ In "cvv" (CheckoutApp.fields (Some "paypal"))).
  { vm_compute. intuition discriminate. }
  split; [exact Hhidden |].
  eapply (hidden_fields_are_not_demanded Checkout.has_at
            (("cvv", Checkout.VString "123") :: Checkout.paypal_order)).
  - vm_compute. reflexivity.
  - exact Hhidden.
Defined.
